(** * A shallow embedding of [logger.py]

    The Python module defines one class, [Logger], whose instances share a
    class-level dictionary [open_loggers] that maps log-file names to open
    file objects.  The methods are embedded as computations in a small
    state-and-exception monad over a [World] (the file objects, the shared
    dictionary, the disk, the error stream) and the instance [self]. *)

From stdpp Require Import base option list strings gmap.
From Stdlib Require Import ZArith Ascii String.

Open Scope string_scope.
Open Scope Z_scope.

(** ** Strings *)

(** [str.upper] on the ASCII range: the letters [a]..[z] move to [A]..[Z],
    every other code is left as it is. *)
Definition upper_ascii (c : ascii) : ascii :=
  let n := nat_of_ascii c in
  if ((97 <=? n) && (n <=? 122))%nat then ascii_of_nat (n - 32) else c.

Fixpoint upper (s : string) : string :=
  match s with
  | EmptyString => EmptyString
  | String c r => String (upper_ascii c) (upper r)
  end.

(** The line terminator ["\n"]. *)
Definition nl : string := String (ascii_of_nat 10) EmptyString.

(** [" ".join(map(str, args))]; the arguments are already strings. *)
Definition format (args : list string) : string := String.concat " " args.

(** The two observations [log] makes of its [context] argument:
    its truth value and its [str]. *)
Class PyObject (A : Type) := {
  py_bool : A → bool;
  py_str : A → string
}.

#[export] Instance PyObject_str : PyObject string := {|
  py_bool s := negb (String.eqb s "");
  py_str s := s
|}.

(** [not context], where [None] is Python's [None]. *)
Definition py_not {C} `{PyObject C} (context : option C) : bool :=
  match context with
  | None => true
  | Some c => negb (py_bool c)
  end.

(** ** Exceptions *)

Inductive exn : Type :=
  | FileNotOpen (msg : string)
  | PathNonExistant (msg : string)
  | LevelNotSupported (msg : string)
  | UnableToLock (msg : string)
  | ValueError (msg : string)
  | AttributeError (name : string)
  | KeyError (key : string)
  | TypeError (msg : string)
  | IOError (msg : string).

(** [except IOError] catches [IOError] (an alias of [OSError]) only. *)
Definition is_IOError (e : exn) : bool :=
  match e with IOError _ => true | _ => false end.

Inductive result (A : Type) : Type :=
  | Ok (a : A)
  | Raise (e : exn).
Arguments Ok {A} a.
Arguments Raise {A} e.

(** ** The world and the instance *)

(** A file object returned by [open(name, "a")]. *)
Record FileObj := mkFile {
  f_name : string;
  f_closed : bool
}.

(** The level table maps level names to ordinals; the settings dictionary
    holds it under the key ["LogLevels"]. *)
Abbreviation LevelTable := (gmap string Z).
Abbreviation Settings := (gmap string (gmap string Z)).

Record World := mkWorld {
  files : list FileObj;             (* file objects, by identity *)
  open_loggers : gmap string nat;   (* Logger.open_loggers *)
  disk : gmap string (list string); (* path -> records appended so far *)
  stderr : list string;             (* sys.stderr *)
  unopenable : gset string;         (* paths on which open() raises IOError *)
  settings_files : gmap string Settings; (* JSON files that can be loaded *)
  cwd : string                      (* Path.cwd() *)
}.

(** An attribute of an instance is absent until it is assigned. *)
Inductive attr (A : Type) : Type :=
  | Unset
  | Attr (a : A).
Arguments Unset {A}.
Arguments Attr {A} a.

Record Logger := mkLogger {
  lock : attr bool;                        (* [Attr true]: a Lock object; [Attr false]: None *)
  loglevel : attr string;
  file_path : attr (option string);
  log_file : attr (option nat);
  log_file_name : attr (option string);
  timestamp : attr (option string);
  supported_formats : attr (list string);
  configured_level_value : attr (option Z);
  log_file_type : attr string;
  settings_path : attr string;
  settings : attr (option Settings)
}.

(** The object [__init__] receives: no attribute assigned yet, and the class
    defines none of the names below. *)
Definition fresh : Logger :=
  mkLogger Unset Unset Unset Unset Unset Unset Unset Unset Unset Unset Unset.

Definition set_lock v (l : Logger) : Logger :=
  mkLogger (Attr v) (loglevel l) (file_path l) (log_file l) (log_file_name l)
    (timestamp l) (supported_formats l) (configured_level_value l)
    (log_file_type l) (settings_path l) (settings l).
Definition set_loglevel v (l : Logger) : Logger :=
  mkLogger (lock l) (Attr v) (file_path l) (log_file l) (log_file_name l)
    (timestamp l) (supported_formats l) (configured_level_value l)
    (log_file_type l) (settings_path l) (settings l).
Definition set_file_path v (l : Logger) : Logger :=
  mkLogger (lock l) (loglevel l) (Attr v) (log_file l) (log_file_name l)
    (timestamp l) (supported_formats l) (configured_level_value l)
    (log_file_type l) (settings_path l) (settings l).
Definition set_log_file v (l : Logger) : Logger :=
  mkLogger (lock l) (loglevel l) (file_path l) (Attr v) (log_file_name l)
    (timestamp l) (supported_formats l) (configured_level_value l)
    (log_file_type l) (settings_path l) (settings l).
Definition set_log_file_name v (l : Logger) : Logger :=
  mkLogger (lock l) (loglevel l) (file_path l) (log_file l) (Attr v)
    (timestamp l) (supported_formats l) (configured_level_value l)
    (log_file_type l) (settings_path l) (settings l).
Definition set_timestamp v (l : Logger) : Logger :=
  mkLogger (lock l) (loglevel l) (file_path l) (log_file l) (log_file_name l)
    (Attr v) (supported_formats l) (configured_level_value l)
    (log_file_type l) (settings_path l) (settings l).
Definition set_supported_formats v (l : Logger) : Logger :=
  mkLogger (lock l) (loglevel l) (file_path l) (log_file l) (log_file_name l)
    (timestamp l) (Attr v) (configured_level_value l)
    (log_file_type l) (settings_path l) (settings l).
Definition set_configured_level_value v (l : Logger) : Logger :=
  mkLogger (lock l) (loglevel l) (file_path l) (log_file l) (log_file_name l)
    (timestamp l) (supported_formats l) (Attr v)
    (log_file_type l) (settings_path l) (settings l).
Definition set_log_file_type v (l : Logger) : Logger :=
  mkLogger (lock l) (loglevel l) (file_path l) (log_file l) (log_file_name l)
    (timestamp l) (supported_formats l) (configured_level_value l)
    (Attr v) (settings_path l) (settings l).
Definition set_settings_path v (l : Logger) : Logger :=
  mkLogger (lock l) (loglevel l) (file_path l) (log_file l) (log_file_name l)
    (timestamp l) (supported_formats l) (configured_level_value l)
    (log_file_type l) (Attr v) (settings l).
Definition set_settings v (l : Logger) : Logger :=
  mkLogger (lock l) (loglevel l) (file_path l) (log_file l) (log_file_name l)
    (timestamp l) (supported_formats l) (configured_level_value l)
    (log_file_type l) (settings_path l) (Attr v).

Definition set_files v (w : World) : World :=
  mkWorld v (open_loggers w) (disk w) (stderr w) (unopenable w)
    (settings_files w) (cwd w).
Definition set_open_loggers v (w : World) : World :=
  mkWorld (files w) v (disk w) (stderr w) (unopenable w)
    (settings_files w) (cwd w).
Definition set_disk v (w : World) : World :=
  mkWorld (files w) (open_loggers w) v (stderr w) (unopenable w)
    (settings_files w) (cwd w).
Definition set_stderr v (w : World) : World :=
  mkWorld (files w) (open_loggers w) (disk w) v (unopenable w)
    (settings_files w) (cwd w).

(** ** The monad: state is the world and [self], exceptions keep the state
    reached when they were raised. *)

Definition M (A : Type) : Type := World * Logger → result A * (World * Logger).

#[export] Instance M_ret : MRet M := λ A a s, (Ok a, s).
#[export] Instance M_bind : MBind M := λ A B f m s,
  match m s with
  | (Ok a, s') => f a s'
  | (Raise e, s') => (Raise e, s')
  end.

Definition raise {A} (e : exn) : M A := λ s, (Raise e, s).
Definition get_world : M World := λ s, (Ok s.1, s).
Definition get_self : M Logger := λ s, (Ok s.2, s).
Definition modify_world (f : World → World) : M unit := λ s, (Ok tt, (f s.1, s.2)).
Definition modify_self (f : Logger → Logger) : M unit := λ s, (Ok tt, (s.1, f s.2)).

(** [self.<name>]: [AttributeError] when the attribute was never assigned. *)
Definition getattr {A} (name : string) (field : Logger → attr A) : M A :=
  l ← get_self;
  match field l with
  | Attr a => mret a
  | Unset => raise (AttributeError name)
  end.

(** [try: body except <catch>: handler] *)
Definition try_except {A} (body : M A) (catch : exn → bool) (handler : exn → M A) : M A :=
  λ s, match body s with
       | (Raise e, s') => if catch e then handler e s' else (Raise e, s')
       | r => r
       end.

(** [try: body finally: fin]: [fin] always runs; an exception of [body] is
    raised again after it, unless [fin] raises one itself. *)
Definition try_finally {A} (body : M A) (fin : M unit) : M A :=
  λ s, match body s with
       | (r, s1) =>
           match fin s1 with
           | (Ok _, s2) => (r, s2)
           | (Raise e, s2) => (Raise e, s2)
           end
       end.

(** ** File objects and the file system *)

(** Whether [h] is a file object that has not been closed. *)
Definition is_open (w : World) (h : nat) : bool :=
  match files w !! h with
  | Some f => negb (f_closed f)
  | None => false
  end.

(** The records appended so far to the file at [p]. *)
Definition file_content (w : World) (p : string) : list string :=
  default [] (disk w !! p).

(** [open(name, "a")]: creates the file when it is missing and returns a new
    file object; paths in [unopenable] raise [IOError]. *)
Definition py_open (name : string) : M nat :=
  w ← get_world;
  if decide (name ∈ unopenable w) then raise (IOError name)
  else
    modify_world (λ w, set_disk (<[name := file_content w name]> (disk w))
                         (set_files (files w ++ [mkFile name false])%list w));;
    mret (List.length (files w)).

(** [f.write(s)] appends to the file the object was opened on; a closed file
    object raises [ValueError].  An identifier that names no file object
    cannot arise from a Python reference and is treated as closed. *)
Definition file_write (h : nat) (s : string) : M unit :=
  w ← get_world;
  match files w !! h with
  | Some f =>
      if f_closed f then raise (ValueError "I/O operation on closed file.")
      else modify_world (set_disk (<[f_name f := (file_content w (f_name f) ++ [s])%list]> (disk w)))
  | None => raise (ValueError "I/O operation on closed file.")
  end.

(** [f.close()]: closing a closed file object is allowed and does nothing. *)
Definition file_close (h : nat) : M unit :=
  w ← get_world;
  match files w !! h with
  | Some f => modify_world (set_files (<[h := mkFile (f_name f) true]> (files w)))
  | None => mret tt
  end.

(** [Path.mkdir(parents=True, exist_ok=True)]: directory creation belongs to
    the file system and leaves nothing the logger observes. *)
Definition mkdir (p : string) : M unit := mret tt.

(** [p / name] on [Path] objects. *)
Definition path_join (p name : string) : string :=
  if String.eqb p "/" then "/" ++ name else p ++ "/" ++ name.

(** [Path(p).resolve()]: an absolute path is kept, a relative one is taken
    from the working directory (symbolic links and dot segments are left to
    the file system). *)
Definition resolve (w : World) (p : string) : string :=
  match p with
  | String "/" _ => p
  | _ => path_join (cwd w) p
  end.

(** [str(x)] of a value that may be [None]. *)
Definition str_opt (x : option string) : string := default "None" x.

(** [bool(d)] of a dictionary. *)
Definition dict_bool {V} (d : gmap string V) : bool := negb (bool_decide (d = ∅)).

(** [d[key]] *)
Definition subscript {V} (d : gmap string V) (key : string) : M V :=
  match d !! key with
  | Some v => mret v
  | None => raise (KeyError key)
  end.

(** ** The methods of [Logger] *)

(** [Logger.log]; [now] is [datetime.datetime.now().strftime("%%Y-%%m-%%d %%H-%%M-%%S")]. *)
Definition log {C} `{PyObject C} (level message : string) (context : option C)
    (now : string) : M unit :=
  let message := format [message] in
  let level := upper level in
  lk ← getattr "lock" lock;
  if (lk : bool) then
    lf ← getattr "log_file" log_file;
    match lf with
    | Some f =>
        st ← getattr "settings" settings;
        match st with
        | Some d =>
            if dict_bool d then
              tbl ← subscript d "LogLevels";
              let log_level_value := tbl !! level in
              (* [a is not None and b is not None]: [b] is read only when
                 [a] is not [None] *)
              match log_level_value with
              | Some o =>
                  cv ← getattr "configured_level_value" configured_level_value;
                  match cv with
                  | Some t =>
                      if (t <=? o)%Z then
                        if py_not context then
                          file_write f ("[" ++ now ++ "] [" ++ level ++ "] " ++ message ++ nl)
                        else
                          file_write f ("[" ++ now ++ "] [" ++ level ++ "] " ++ message
                                          ++ " [" ++ from_option py_str "None" context ++ "]" ++ nl)
                      else mret tt
                  | None => raise (LevelNotSupported (level ++ " is not a valid log level"))
                  end
              | None => raise (LevelNotSupported (level ++ " is not a valid log level"))
              end
            else mret tt
        | None => mret tt
        end
    | None => raise (FileNotOpen "Log file is not open")
    end
  else raise (UnableToLock "Self.lock is None or false for some reason").

(** [Logger.get_log_name] *)
Definition get_log_name : M string :=
  fp ← getattr "file_path" file_path;
  match fp with
  | Some p =>
      ts ← getattr "timestamp" timestamp;
      ty ← getattr "log_file_type" log_file_type;
      mret (path_join p (str_opt ts ++ "." ++ ty))
  | None => raise (PathNonExistant "File path not found")
  end.

(** [Logger.create_log_file]; [now] is the clock reading of the "Starting"
    record.  [self.log_file_name] is assigned on the first line and read
    back unchanged below, so the local [name] stands for it. *)
Definition create_log_file (now : string) : M unit :=
  name ← get_log_name;
  modify_self (set_log_file_name (Some name));;
  fp ← getattr "file_path" file_path;
  match fp with
  | Some p => mkdir p
  | None => raise (PathNonExistant "File path not found")
  end;;
  try_except
    (w ← get_world;
     match open_loggers w !! name with
     | Some h => modify_self (set_log_file (Some h))
     | None =>
         h ← py_open name;
         modify_self (set_log_file (Some h));;
         modify_world (λ w, set_open_loggers (<[name := h]> (open_loggers w)) w);;
         log "info" "Starting" (None : option string) now
     end)
    is_IOError
    (λ _, modify_world (λ w, set_stderr
            (stderr w ++ [("Error: Unable to open log file " ++ name ++ nl)%string])%list w)).

(** [Logger.close]; [now] is the clock reading of the "Closing file" record. *)
Definition close (now : string) : M unit :=
  lf ← getattr "log_file" log_file;
  match lf with
  | Some _ =>
      try_finally
        (log "info" "Closing file" (None : option string) now)
        (lf ← getattr "log_file" log_file;
         match lf with
         | Some h => file_close h
         | None => raise (AttributeError "close")
         end;;
         nm ← getattr "log_file_name" log_file_name;
         w ← get_world;
         match nm with
         | Some n =>
             if decide (is_Some (open_loggers w !! n))
             then modify_world (set_open_loggers (delete n (open_loggers w)))
             else mret tt
         | None => mret tt
         end;;
         modify_self (set_log_file None))
  | None => raise (FileNotOpen "Log file is not open")
  end.

(** [json.load] of the file at [path]; a missing file raises [IOError]. *)
Definition load_settings (path : string) : M Settings :=
  w ← get_world;
  match settings_files w !! path with
  | Some d => mret d
  | None => raise (IOError path)
  end.

(** [bool(Path(p).resolve())]: a [Path] object is always true. *)
Definition path_bool (p : string) : bool := true.

(** [Logger.__init__], run on the new object.  [stamp] is the clock reading
    in the format of the file name, [now] the one of the "Starting" record. *)
Definition __init__ (output_dir log_file_type_ settings_path_ LogLevel : string)
    (stamp now : string) : M unit :=
  (* get thread lock *)
  modify_self (set_lock false);;
  try_except (modify_self (set_lock true)) (λ _, true)
    (λ _, raise (UnableToLock "Unable to get process lock with error"));;
  modify_self (set_loglevel (upper LogLevel));;
  (* initialise variables *)
  modify_self (set_file_path None);;
  modify_self (set_log_file None);;
  modify_self (set_log_file_name None);;
  modify_self (set_timestamp None);;
  (* assign values *)
  modify_self (set_timestamp (Some stamp));;
  modify_self (set_supported_formats ["log"; "txt"]);;
  st ← getattr "settings" settings;
  tbl ← match st with
        | Some d => subscript d "LogLevels"
        | None => raise (TypeError "'NoneType' object is not subscriptable")
        end;
  lvl ← getattr "loglevel" loglevel;
  modify_self (set_configured_level_value (tbl !! lvl));;
  (* check format type *)
  fmts ← getattr "supported_formats" supported_formats;
  (if bool_decide (log_file_type_ ∈ fmts)
   then modify_self (set_log_file_type log_file_type_)
   else raise (ValueError "Log file type isn't supported"));;
  (* check for the output files *)
  w ← get_world;
  (if String.eqb output_dir "."
   then modify_self (set_file_path (Some (cwd w)))
   else modify_self (set_file_path (Some (resolve w output_dir))));;
  (* create the log file *)
  create_log_file now;;
  (* check the settings path *)
  modify_self (set_settings_path settings_path_);;
  sp ← getattr "settings_path" settings_path;
  if String.eqb sp "./log_settings.json" then
    d ← load_settings sp;
    modify_self (set_settings (Some d))
  else
    if path_bool (resolve w sp) then
      d ← load_settings sp;
      modify_self (set_settings (Some d))
    else raise (PathNonExistant "File path does not exist").

(** [Logger(...)]: [__init__] on a new object; the instance exists for the
    caller only when [__init__] returns. *)
Definition construct (output_dir log_file_type_ settings_path_ LogLevel : string)
    (stamp now : string) (w : World) : result Logger * World :=
  match __init__ output_dir log_file_type_ settings_path_ LogLevel stamp now (w, fresh) with
  | (Ok _, (w', l)) => (Ok l, w')
  | (Raise e, (w', _)) => (Raise e, w')
  end.

(** Running a method of the instance [l] in the world [w]. *)
Definition run {A} (m : M A) (w : World) (l : Logger) : result A * (World * Logger) :=
  m (w, l).

(** ** Notions used in the statements *)

(** The text [log] hands to [write]. *)
Definition record_text {C} `{PyObject C} (level message : string)
    (context : option C) (now : string) : string :=
  if py_not context
  then "[" ++ now ++ "] [" ++ upper level ++ "] " ++ format [message] ++ nl
  else "[" ++ now ++ "] [" ++ upper level ++ "] " ++ format [message]
         ++ " [" ++ from_option py_str "None" context ++ "]" ++ nl.

(** What the [finally] block of [close] leaves of the world: the file object
    [h] closed and the registry entry of [nm] removed. *)
Definition released (h : nat) (nm : option string) (w : World) : World :=
  let w1 :=
    match files w !! h with
    | Some f => set_files (<[h := mkFile (f_name f) true]> (files w)) w
    | None => w
    end in
  match nm with
  | Some n =>
      if decide (is_Some (open_loggers w1 !! n))
      then set_open_loggers (delete n (open_loggers w1)) w1
      else w1
  | None => w1
  end.

(** The world and the instance a method call leaves. *)
Definition after {A} (m : M A) (w : World) (l : Logger) : World * Logger :=
  (run m w l).2.

(** The name [get_log_name] computes for an instance, when it computes one. *)
Definition log_name_of (l : Logger) : option string :=
  match file_path l, timestamp l, log_file_type l with
  | Attr (Some p), Attr ts, Attr ty => Some (path_join p (str_opt ts ++ "." ++ ty))
  | _, _, _ => None
  end.

(** The world right after [open] succeeded and the new file object was
    registered. *)
Definition opened (name : string) (w : World) : World :=
  set_open_loggers (<[name := List.length (files w)]> (open_loggers w))
    (set_disk (<[name := file_content w name]> (disk w))
       (set_files (files w ++ [mkFile name false])%list w)).

(** Every open file object is the one registered under its path. *)
Definition registered_open (w : World) : Prop :=
  ∀ h f, files w !! h = Some f → f_closed f = false →
         open_loggers w !! f_name f = Some h.

(** A path has at most one open file object. *)
Definition one_open_per_path (w : World) : Prop :=
  ∀ h1 h2 f1 f2,
    files w !! h1 = Some f1 → files w !! h2 = Some f2 →
    f_closed f1 = false → f_closed f2 = false →
    f_name f1 = f_name f2 → h1 = h2.

(** Every registered name leads to a file object that was opened on that
    name. *)
Definition registry_named (w : World) : Prop :=
  ∀ n h, open_loggers w !! n = Some h →
         ∃ f, files w !! h = Some f ∧ f_name f = n.

(** ** Concrete worlds and instances, used to instantiate the theorems *)

Definition demo_settings : Settings :=
  {[ "LogLevels" := {[ "DEBUG" := 0; "INFO" := 1; "WARNING" := 2; "ERROR" := 3 ]} ]}.

Definition demo_name : string := "/home/logs/2024-01-01_00-00-00.log".

Definition demo_world : World :=
  mkWorld [mkFile demo_name false] {[ demo_name := 0%nat ]} {[ demo_name := [] ]}
    [] ∅ ∅ "/home".

Definition demo_logger : Logger :=
  mkLogger (Attr true) (Attr "INFO") (Attr (Some "/home/logs")) (Attr (Some 0%nat))
    (Attr (Some demo_name)) (Attr (Some "2024-01-01_00-00-00")) (Attr ["log"; "txt"])
    (Attr (Some 1)) (Attr "log") (Attr "./log_settings.json") (Attr (Some demo_settings)).

(** A world in which the file object of [demo_logger] is closed already, so
    that the "Closing file" write raises. *)
Definition stale_world : World :=
  mkWorld [mkFile demo_name true] {[ demo_name := 0%nat ]} {[ demo_name := [] ]}
    [] ∅ ∅ "/home".

(** An instance as [__init__] leaves it before [create_log_file], had the
    level table been at hand: no file object yet. *)
Definition new_logger : Logger :=
  mkLogger (Attr true) (Attr "INFO") (Attr (Some "/home/logs")) (Attr None)
    (Attr None) (Attr (Some "2024-01-01_00-00-00")) (Attr ["log"; "txt"])
    (Attr (Some 1)) (Attr "log") Unset (Attr (Some demo_settings)).

Definition empty_world : World := mkWorld [] ∅ ∅ [] ∅ ∅ "/home".

(** Two instances [a] and [b] created on the same file name; [a] writes
    "first", [b] writes "second". *)
Definition shared_a : World * Logger := after (create_log_file "T0") empty_world new_logger.
Definition shared_b : World * Logger := after (create_log_file "T1") shared_a.1 new_logger.
Definition shared_w : World :=
  (after (log "info" "second" (None : option string) "T3")
     (after (log "info" "first" (None : option string) "T2") shared_b.1 shared_a.2).1
     shared_b.2).1.

(** A third instance is created on the same name after [a] closed, then [b]
    closes, then a fourth instance is created. *)
Definition reopened_c : World * Logger :=
  after (create_log_file "T5") (after (close "T4") shared_w shared_a.2).1 new_logger.
Definition reopened_d : World * Logger :=
  after (create_log_file "T7") (after (close "T6") reopened_c.1 shared_b.2).1 new_logger.

(** A world in which the log file cannot be opened. *)
Definition readonly_world : World := mkWorld [] ∅ ∅ [] {[ demo_name ]} ∅ "/home".

(** A world that holds the default settings file with the usual table. *)
Definition settings_world : World :=
  mkWorld [] ∅ ∅ [] ∅ {[ "./log_settings.json" := demo_settings ]} "/home".

(** ** Proof automation *)

(** Unfolding the monad down to pairs of result and state. *)
Ltac unfold_M :=
  unfold run, getattr, get_self, get_world, modify_self, modify_world,
    subscript, raise, try_except, try_finally, mbind, M_bind, mret, M_ret in *.

(** ** Basic facts about the file operations and [log] *)

Lemma dict_bool_lookup {V} (d : gmap string V) k v :
  d !! k = Some v → dict_bool d = true.
Proof.
  intros Hk. unfold dict_bool.
  rewrite bool_decide_eq_false_2; [done|].
  intros ->. by rewrite lookup_empty in Hk.
Qed.

Lemma format_single (message : string) : format [message] = message.
Proof. reflexivity. Qed.

Lemma file_write_open w l h f s :
  files w !! h = Some f → f_closed f = false →
  file_write h s (w, l) =
    (Ok tt, (set_disk (<[f_name f := (file_content w (f_name f) ++ [s])%list]> (disk w)) w, l)).
Proof.
  intros Hf Hc. unfold file_write, get_world, modify_world, mbind, M_bind. simpl.
  by rewrite Hf, Hc.
Qed.

Lemma file_write_closed w l h s :
  is_open w h = false →
  file_write h s (w, l) = (Raise (ValueError "I/O operation on closed file."), (w, l)).
Proof.
  unfold is_open, file_write, get_world, raise, mbind, M_bind. simpl.
  destruct (files w !! h) as [f|]; [|done].
  by destruct (f_closed f).
Qed.

Lemma is_open_lookup w h :
  is_open w h = true → ∃ f, files w !! h = Some f ∧ f_closed f = false.
Proof.
  unfold is_open. destruct (files w !! h) as [f|]; [|done].
  intros Hf. exists f. split; [done|]. by destruct (f_closed f).
Qed.

(** [log] on an instance that holds a lock, a file object and a settings
    dictionary with a level table. *)
Lemma log_loaded {C} `{PyObject C} w l h d tbl level message (context : option C) now :
  lock l = Attr true →
  log_file l = Attr (Some h) →
  settings l = Attr (Some d) →
  d !! "LogLevels" = Some tbl →
  run (log level message context now) w l =
    match tbl !! upper level with
    | Some o =>
        match configured_level_value l with
        | Attr (Some t) =>
            if (t <=? o)%Z
            then file_write h (record_text level message context now) (w, l)
            else (Ok tt, (w, l))
        | Attr None =>
            (Raise (LevelNotSupported (upper level ++ " is not a valid log level")), (w, l))
        | Unset => (Raise (AttributeError "configured_level_value"), (w, l))
        end
    | None => (Raise (LevelNotSupported (upper level ++ " is not a valid log level")), (w, l))
    end.
Proof.
  intros Hlk Hlf Hst Htbl.
  unfold run, log, getattr, get_self, subscript, raise, mbind, M_bind, mret, M_ret. simpl.
  rewrite Hlk; simpl. rewrite Hlf; simpl. rewrite Hst; simpl.
  rewrite (dict_bool_lookup _ _ _ Htbl), Htbl; simpl.
  destruct (tbl !! upper level) as [o|]; [|done]. simpl.
  destruct (configured_level_value l) as [|[t|]]; [done| |done]. simpl.
  destruct (t <=? o)%Z; [|done].
  unfold record_text. by destruct (py_not context).
Qed.

Lemma file_write_frame h s w l r w' l' :
  file_write h s (w, l) = (r, (w', l')) →
  l' = l ∧ files w' = files w ∧ open_loggers w' = open_loggers w ∧
  stderr w' = stderr w ∧ unopenable w' = unopenable w.
Proof.
  unfold file_write. unfold_M. simpl.
  destruct (files w !! h) as [f|]; [destruct (f_closed f)|];
    intros [= <- <- <-]; done.
Qed.

(** [log] assigns no attribute and touches nothing but the disk. *)
Lemma log_frame {C} `{PyObject C} level message (context : option C) now w l r w' l' :
  run (log level message context now) w l = (r, (w', l')) →
  l' = l ∧ files w' = files w ∧ open_loggers w' = open_loggers w ∧
  stderr w' = stderr w ∧ unopenable w' = unopenable w.
Proof.
  unfold log. unfold_M. simpl.
  destruct (lock l) as [|[|]]; simpl; [by intros [= <- <- <-]| |by intros [= <- <- <-]].
  destruct (log_file l) as [|[h|]]; simpl; [by intros [= <- <- <-]| |by intros [= <- <- <-]].
  destruct (settings l) as [|[d|]]; simpl; [by intros [= <- <- <-]| |by intros [= <- <- <-]].
  destruct (dict_bool d); simpl; [|by intros [= <- <- <-]].
  destruct (d !! "LogLevels") as [tbl|]; simpl; [|by intros [= <- <- <-]].
  destruct (tbl !! upper level) as [o|]; simpl; [|by intros [= <- <- <-]].
  destruct (configured_level_value l) as [|[t|]]; simpl;
    [by intros [= <- <- <-]| |by intros [= <- <- <-]].
  destruct (t <=? o)%Z; [|by intros [= <- <- <-]].
  destruct (py_not context); apply file_write_frame.
Qed.

(** [close] on an instance that holds a file object: the "Closing file"
    record is attempted, the [finally] block runs in either case, and the
    outcome of the attempt is the outcome of [close]. *)
Lemma close_holding w l h nm now :
  log_file l = Attr (Some h) →
  log_file_name l = Attr nm →
  ∃ r w1,
    run (log "info" "Closing file" (None : option string) now) w l = (r, (w1, l)) ∧
    run (close now) w l = (r, (released h nm w1, set_log_file None l)).
Proof.
  intros Hlf Hnm.
  destruct (run (log "info" "Closing file" (None : option string) now) w l)
    as [r [w1 l1]] eqn:Hlog.
  destruct (log_frame _ _ _ _ _ _ _ _ _ Hlog) as (-> & _).
  exists r, w1. split; [done|].
  unfold run in Hlog. unfold close. unfold_M. simpl.
  rewrite Hlf. simpl. rewrite Hlog. simpl. rewrite Hlf. simpl.
  unfold file_close, released. unfold_M. simpl.
  destruct (files w1 !! h) as [f|]; simpl; rewrite Hnm; simpl.
  - destruct nm as [n|]; simpl; [|done]. by case_decide.
  - destruct nm as [n|]; simpl; [|done]. by case_decide.
Qed.

Lemma close_released w l now :
  log_file l = Attr None →
  run (close now) w l = (Raise (FileNotOpen "Log file is not open"), (w, l)).
Proof. intros Hlf. unfold close. unfold_M. simpl. by rewrite Hlf. Qed.

Lemma released_closed h nm w : is_open (released h nm w) h = false.
Proof.
  unfold released, is_open.
  destruct (files w !! h) as [f|] eqn:Hf.
  - assert (Hlt : (h < List.length (files w))%nat) by (by eapply lookup_lt_Some).
    destruct nm as [n|]; [case_decide|]; simpl;
      by rewrite list_lookup_insert_eq.
  - destruct nm as [n|]; [case_decide|]; simpl; by rewrite Hf.
Qed.

Lemma released_unregistered h n w : open_loggers (released h (Some n) w) !! n = None.
Proof.
  unfold released.
  destruct (files w !! h) as [f|]; simpl.
  - case_decide as Hd; simpl; [by rewrite lookup_delete_eq|].
    by apply eq_None_not_Some.
  - case_decide as Hd; simpl; [by rewrite lookup_delete_eq|].
    by apply eq_None_not_Some.
Qed.

Lemma released_disk h nm w : disk (released h nm w) = disk w.
Proof.
  unfold released.
  destruct (files w !! h) as [f|]; destruct nm as [n|]; simpl;
    try case_decide; done.
Qed.

Lemma file_content_written w p v :
  file_content (set_disk (<[p := v]> (disk w)) w) p = v.
Proof. unfold file_content. simpl. by rewrite lookup_insert_eq. Qed.

(** ** The level threshold *)

(** C1: on an open logger with a loaded level table, a call whose level
    resolves to ordinal [o] under a threshold [t] returns normally; it appends
    exactly one record to the file when [t <= o] and leaves the world as it
    was when [o < t]; so one record is appended iff [o >= t]. *)
Theorem log_appends_iff_at_or_above_threshold {C} `{PyObject C}
    w l h f d tbl level message (context : option C) now o t :
  lock l = Attr true →
  log_file l = Attr (Some h) →
  files w !! h = Some f →
  f_closed f = false →
  settings l = Attr (Some d) →
  d !! "LogLevels" = Some tbl →
  tbl !! upper level = Some o →
  configured_level_value l = Attr (Some t) →
  ∃ w', run (log level message context now) w l = (Ok tt, (w', l)) ∧
    ((t ≤ o)%Z →
       w' = set_disk (<[f_name f := (file_content w (f_name f)
                                       ++ [record_text level message context now])%list]>
                        (disk w)) w) ∧
    ((o < t)%Z → w' = w) ∧
    ((∃ r, file_content w' (f_name f) = (file_content w (f_name f) ++ [r])%list)
       ↔ (t ≤ o)%Z).
Proof.
  intros Hlk Hlf Hf Hc Hst Htbl Ho Ht.
  rewrite (log_loaded w l h d tbl) by done. rewrite Ho, Ht.
  destruct (t <=? o)%Z eqn:Hcmp.
  - apply Z.leb_le in Hcmp. rewrite (file_write_open w l h f) by done.
    eexists. split; [done|]. split; [done|]. split; [lia|].
    split; [done|]. intros _. eexists. apply file_content_written.
  - apply Z.leb_gt in Hcmp. exists w. split; [done|]. split; [lia|].
    split; [done|]. split; [|lia].
    intros [r Hr]. apply (f_equal List.length) in Hr.
    rewrite length_app in Hr. simpl in Hr. lia.
Qed.

Lemma log_appends_iff_at_or_above_threshold_witness :
  ∃ w', run (log "error" "y" (None : option string) "T") demo_world demo_logger
        = (Ok tt, (w', demo_logger)) ∧
    ((1 ≤ 3)%Z →
       w' = set_disk (<[demo_name := (file_content demo_world demo_name
                 ++ [record_text "error" "y" (None : option string) "T"])%list]>
               (disk demo_world)) demo_world) ∧
    ((3 < 1)%Z → w' = demo_world) ∧
    ((∃ r, file_content w' demo_name = (file_content demo_world demo_name ++ [r])%list)
       ↔ (1 ≤ 3)%Z).
Proof.
  apply (log_appends_iff_at_or_above_threshold demo_world demo_logger 0%nat
           (mkFile demo_name false) demo_settings
           {[ "DEBUG" := 0; "INFO" := 1; "WARNING" := 2; "ERROR" := 3 ]}
           "error" "y" None "T" 3 1); reflexivity.
Defined.

(** C5: on an open logger with a loaded level table, a level name that is
    absent from the table once upper-cased makes [log] raise
    [LevelNotSupported]; nothing is written and nothing else changes. *)
Theorem log_unknown_level_raises {C} `{PyObject C}
    w l h d tbl level message (context : option C) now :
  lock l = Attr true →
  log_file l = Attr (Some h) →
  settings l = Attr (Some d) →
  d !! "LogLevels" = Some tbl →
  tbl !! upper level = None →
  run (log level message context now) w l =
    (Raise (LevelNotSupported (upper level ++ " is not a valid log level")), (w, l)).
Proof.
  intros Hlk Hlf Hst Htbl Hnone.
  rewrite (log_loaded w l h d tbl) by done. by rewrite Hnone.
Qed.

Lemma log_unknown_level_raises_witness :
  run (log "verbose" "x" (None : option string) "T") demo_world demo_logger =
    (Raise (LevelNotSupported (upper "verbose" ++ " is not a valid log level")),
     (demo_world, demo_logger)).
Proof.
  apply (log_unknown_level_raises demo_world demo_logger 0%nat demo_settings
           {[ "DEBUG" := 0; "INFO" := 1; "WARNING" := 2; "ERROR" := 3 ]});
    reflexivity.
Defined.

(** ** The record format *)

(** C9: the record [log] appends is ["[<timestamp>] [<LEVEL>] <message>\n"],
    with the level upper-cased, when the context is [None] or false (empty),
    and ["[<timestamp>] [<LEVEL>] <message> [<context>]\n"] exactly when a
    context is supplied and true (non-empty). *)
Theorem log_record_format {C} `{PyObject C}
    w l h f d tbl level message (context : option C) now o t :
  lock l = Attr true →
  log_file l = Attr (Some h) →
  files w !! h = Some f →
  f_closed f = false →
  settings l = Attr (Some d) →
  d !! "LogLevels" = Some tbl →
  tbl !! upper level = Some o →
  configured_level_value l = Attr (Some t) →
  (t ≤ o)%Z →
  ∃ w', run (log level message context now) w l = (Ok tt, (w', l)) ∧
    file_content w' (f_name f) =
      (file_content w (f_name f) ++
        [(match context with
          | Some c =>
              if py_bool c
              then "[" ++ now ++ "] [" ++ upper level ++ "] " ++ message
                     ++ " [" ++ py_str c ++ "]" ++ nl
              else "[" ++ now ++ "] [" ++ upper level ++ "] " ++ message ++ nl
          | None => "[" ++ now ++ "] [" ++ upper level ++ "] " ++ message ++ nl
          end)%string])%list.
Proof.
  intros Hlk Hlf Hf Hc Hst Htbl Ho Ht Hle.
  rewrite (log_loaded w l h d tbl) by done. rewrite Ho, Ht.
  apply Z.leb_le in Hle. rewrite Hle.
  rewrite (file_write_open w l h f) by done.
  eexists. split; [done|]. rewrite file_content_written.
  unfold record_text. rewrite format_single.
  destruct context as [c|]; simpl; [|done]. by destruct (py_bool c).
Qed.

Lemma log_record_format_witness :
  ∃ w', run (log "info" "hello" (Some "user=abc") "2024-01-01 10-00-00")
            demo_world demo_logger = (Ok tt, (w', demo_logger)) ∧
    file_content w' demo_name =
      (file_content demo_world demo_name ++
        [("[2024-01-01 10-00-00] [INFO] hello [user=abc]" ++ nl)%string])%list.
Proof.
  exact (log_record_format demo_world demo_logger 0%nat (mkFile demo_name false)
           demo_settings {[ "DEBUG" := 0; "INFO" := 1; "WARNING" := 2; "ERROR" := 3 ]}
           "info" "hello" (Some "user=abc") "2024-01-01 10-00-00" 1 1
           eq_refl eq_refl eq_refl eq_refl eq_refl eq_refl eq_refl eq_refl
           (Z.le_refl 1)).
Defined.

(** ** Closing *)

(** C7: once [close] has run on an instance that held a file object, the
    instance holds none, and a further [close] raises [FileNotOpen] and
    leaves the world and the instance exactly as they were. *)
Theorem close_twice_raises_FileNotOpen w l h nm now now' :
  log_file l = Attr (Some h) →
  log_file_name l = Attr nm →
  ∃ r w' l',
    run (close now) w l = (r, (w', l')) ∧
    log_file l' = Attr None ∧
    run (close now') w' l' = (Raise (FileNotOpen "Log file is not open"), (w', l')).
Proof.
  intros Hlf Hnm.
  destruct (close_holding w l h nm now Hlf Hnm) as (r & w1 & _ & Hclose).
  exists r, (released h nm w1), (set_log_file None l).
  split; [done|]. split; [done|]. by apply close_released.
Qed.

Lemma close_twice_raises_FileNotOpen_witness :
  ∃ r w' l',
    run (close "T1") demo_world demo_logger = (r, (w', l')) ∧
    log_file l' = Attr None ∧
    run (close "T2") w' l' = (Raise (FileNotOpen "Log file is not open"), (w', l')).
Proof.
  exact (close_twice_raises_FileNotOpen demo_world demo_logger 0%nat (Some demo_name)
           "T1" "T2" eq_refl eq_refl).
Defined.

(** C8: [close] on an instance that holds a file object first attempts the
    "Closing file" record; whatever that attempt does, even when it raises,
    the file object is closed, the registry entry of the instance's file name
    is removed and the instance holds no file object any more.  The outcome
    of the attempt is the outcome of [close], and the disk is as the attempt
    left it. *)
Theorem close_releases_even_if_banner_raises w l h nm now :
  log_file l = Attr (Some h) →
  log_file_name l = Attr (Some nm) →
  ∃ r w1 w' l',
    run (log "info" "Closing file" (None : option string) now) w l = (r, (w1, l)) ∧
    run (close now) w l = (r, (w', l')) ∧
    is_open w' h = false ∧
    open_loggers w' !! nm = None ∧
    log_file l' = Attr None ∧
    disk w' = disk w1.
Proof.
  intros Hlf Hnm.
  destruct (close_holding w l h (Some nm) now Hlf Hnm) as (r & w1 & Hlog & Hclose).
  exists r, w1, (released h (Some nm) w1), (set_log_file None l).
  split; [done|]. split; [done|].
  split; [apply released_closed|]. split; [apply released_unregistered|].
  split; [done|]. apply released_disk.
Qed.

Lemma close_releases_even_if_banner_raises_witness :
  ∃ r w1 w' l',
    run (log "info" "Closing file" (None : option string) "T") stale_world demo_logger
      = (r, (w1, demo_logger)) ∧
    run (close "T") stale_world demo_logger = (r, (w', l')) ∧
    is_open w' 0%nat = false ∧
    open_loggers w' !! demo_name = None ∧
    log_file l' = Attr None ∧
    disk w' = disk w1.
Proof.
  exact (close_releases_even_if_banner_raises stale_world demo_logger 0%nat demo_name
           "T" eq_refl eq_refl).
Defined.

(** In [stale_world] the attempt does raise, and the release still happens. *)
Example close_after_failed_banner :
  ∃ w', run (close "T") stale_world demo_logger =
          (Raise (ValueError "I/O operation on closed file."),
           (w', set_log_file None demo_logger)) ∧
        is_open w' 0%nat = false ∧
        open_loggers w' !! demo_name = None.
Proof. eexists. vm_compute. repeat split. Qed.

(** ** Instances that share a file object *)

(** C2, as stated, fails: after the first instance closes, the shared file
    object is closed and its registry entry is gone, and the second
    instance's write raises [ValueError]. *)
Lemma first_close_closes_shared_file :
  log_file shared_a.2 = Attr (Some 0%nat) ∧
  log_file shared_b.2 = Attr (Some 0%nat) ∧
  is_open shared_w 0%nat = true ∧
  open_loggers shared_w !! demo_name = Some 0%nat ∧
  let '(r, (w', _)) := run (close "T4") shared_w shared_a.2 in
  r = Ok tt ∧
  is_open w' 0%nat = false ∧
  open_loggers w' !! demo_name = None ∧
  run (log "info" "third" (None : option string) "T5") w' shared_b.2 =
    (Raise (ValueError "I/O operation on closed file."), (w', shared_b.2)).
Proof. vm_compute. repeat split. Qed.

(** C2, amended: there is no reference count.  [close] on one of two
    instances that hold the same file object closes that object and removes
    the registry entry at once; every later [log] through the other instance
    that passes the level filter raises [ValueError] and writes nothing. *)
Theorem close_of_one_holder_closes_for_all
    w a b h nm now d tbl level message (context : option string) now' o t :
  log_file a = Attr (Some h) →
  log_file_name a = Attr (Some nm) →
  log_file b = Attr (Some h) →
  lock b = Attr true →
  settings b = Attr (Some d) →
  d !! "LogLevels" = Some tbl →
  tbl !! upper level = Some o →
  configured_level_value b = Attr (Some t) →
  (t ≤ o)%Z →
  ∃ r w',
    run (close now) w a = (r, (w', set_log_file None a)) ∧
    is_open w' h = false ∧
    open_loggers w' !! nm = None ∧
    run (log level message context now') w' b =
      (Raise (ValueError "I/O operation on closed file."), (w', b)).
Proof.
  intros Ha Hnm Hb Hlk Hst Htbl Ho Ht Hle.
  destruct (close_holding w a h (Some nm) now Ha Hnm) as (r & w1 & _ & Hclose).
  exists r, (released h (Some nm) w1).
  split; [done|]. split; [apply released_closed|].
  split; [apply released_unregistered|].
  rewrite (log_loaded _ b h d tbl) by done. rewrite Ho, Ht.
  apply Z.leb_le in Hle. rewrite Hle.
  apply file_write_closed, released_closed.
Qed.

Lemma close_of_one_holder_closes_for_all_witness :
  ∃ r w',
    run (close "T4") shared_w shared_a.2 = (r, (w', set_log_file None shared_a.2)) ∧
    is_open w' 0%nat = false ∧
    open_loggers w' !! demo_name = None ∧
    run (log "error" "third" (None : option string) "T5") w' shared_b.2 =
      (Raise (ValueError "I/O operation on closed file."), (w', shared_b.2)).
Proof.
  exact (close_of_one_holder_closes_for_all shared_w shared_a.2 shared_b.2 0%nat
           demo_name "T4" demo_settings
           {[ "DEBUG" := 0; "INFO" := 1; "WARNING" := 2; "ERROR" := 3 ]}
           "error" "third" None "T5" 3 1
           eq_refl eq_refl eq_refl eq_refl eq_refl eq_refl eq_refl eq_refl
           ltac:(discriminate)).
Defined.

(** ** The registry of open files *)

Lemma get_log_name_Some w l name :
  log_name_of l = Some name → get_log_name (w, l) = (Ok name, (w, l)).
Proof.
  unfold log_name_of, get_log_name. unfold_M. simpl.
  destruct (file_path l) as [|[p|]]; simpl; [done| |done].
  destruct (timestamp l) as [|ts]; simpl; [done|].
  destruct (log_file_type l) as [|ty]; simpl; [done|].
  by intros [= <-].
Qed.

Lemma get_log_name_None w l :
  log_name_of l = None → ∃ e, get_log_name (w, l) = (Raise e, (w, l)).
Proof.
  unfold log_name_of, get_log_name. unfold_M. simpl.
  destruct (file_path l) as [|[p|]]; simpl; [by eexists| |by eexists].
  destruct (timestamp l) as [|ts]; simpl; [by eexists|].
  destruct (log_file_type l) as [|ty]; simpl; [by eexists|done].
Qed.

Lemma log_name_of_file_path l name :
  log_name_of l = Some name → ∃ p, file_path l = Attr (Some p).
Proof.
  unfold log_name_of. destruct (file_path l) as [|[p|]]; [done| |done]. by exists p.
Qed.

(** [create_log_file] when the name is registered already: the registered
    file object is taken, nothing is opened and nothing is written. *)
Lemma create_log_file_registered w l name h now :
  log_name_of l = Some name →
  open_loggers w !! name = Some h →
  run (create_log_file now) w l =
    (Ok tt, (w, set_log_file (Some h) (set_log_file_name (Some name) l))).
Proof.
  intros Hname Hreg. destruct (log_name_of_file_path _ _ Hname) as [p Hp].
  unfold run, create_log_file. unfold mbind at 1. unfold M_bind at 1.
  rewrite (get_log_name_Some w l name Hname).
  unfold mkdir. unfold_M. simpl. rewrite Hp. simpl. by rewrite Hreg.
Qed.

(** [create_log_file] when the name is not registered and [open] fails: the
    failure goes to the error stream and the call returns normally. *)
Lemma create_log_file_unopenable w l name now :
  log_name_of l = Some name →
  open_loggers w !! name = None →
  name ∈ unopenable w →
  run (create_log_file now) w l =
    (Ok tt, (set_stderr (stderr w ++ [("Error: Unable to open log file " ++ name ++ nl)%string])%list w,
             set_log_file_name (Some name) l)).
Proof.
  intros Hname Hreg Hbad. destruct (log_name_of_file_path _ _ Hname) as [p Hp].
  unfold run, create_log_file. unfold mbind at 1. unfold M_bind at 1.
  rewrite (get_log_name_Some w l name Hname).
  unfold mkdir, py_open. unfold_M. simpl. rewrite Hp. simpl. rewrite Hreg.
  by rewrite decide_True.
Qed.

(** [create_log_file] when the name is not registered and [open] succeeds:
    a new file object is opened and registered, then "Starting" is logged
    through it; an [IOError] of that write would go to the error stream. *)
Lemma create_log_file_opens w l name now :
  log_name_of l = Some name →
  open_loggers w !! name = None →
  name ∉ unopenable w →
  let l1 := set_log_file (Some (List.length (files w))) (set_log_file_name (Some name) l) in
  run (create_log_file now) w l =
    match run (log "info" "Starting" (None : option string) now) (opened name w) l1 with
    | (Raise (IOError m), (w2, l2)) =>
        (Ok tt, (set_stderr (stderr w2 ++ [("Error: Unable to open log file " ++ name ++ nl)%string])%list w2, l2))
    | res => res
    end.
Proof.
  intros Hname Hreg Hok l1. destruct (log_name_of_file_path _ _ Hname) as [p Hp].
  unfold run, create_log_file. unfold mbind at 1. unfold M_bind at 1.
  rewrite (get_log_name_Some w l name Hname).
  unfold mkdir, py_open. unfold_M. simpl. rewrite Hp. simpl. rewrite Hreg.
  rewrite decide_False by done. simpl.
  fold (opened name w). fold l1.
  destruct (log "info" "Starting" None now (opened name w, l1)) as [[[]|e] [w2 l2]];
    [done|]. by destruct e.
Qed.

Lemma registered_open_one_per_path w : registered_open w → one_open_per_path w.
Proof.
  intros Hinv h1 h2 f1 f2 H1 H2 Hc1 Hc2 Hn.
  pose proof (Hinv _ _ H1 Hc1) as E1. pose proof (Hinv _ _ H2 Hc2) as E2.
  rewrite Hn in E1. congruence.
Qed.

Lemma create_log_file_no_name w l now :
  log_name_of l = None →
  ∃ e, run (create_log_file now) w l = (Raise e, (w, l)).
Proof.
  intros Hname. destruct (get_log_name_None w l Hname) as [e He].
  exists e. unfold run, create_log_file. unfold mbind at 1. unfold M_bind at 1.
  by rewrite He.
Qed.

(** What [create_log_file] can do to the file objects and the registry:
    nothing, or one new open file object registered under a name that was
    free. *)
Lemma create_log_file_registry now w l r w' l' :
  run (create_log_file now) w l = (r, (w', l')) →
  (files w' = files w ∧ open_loggers w' = open_loggers w) ∨
  (∃ name, open_loggers w !! name = None ∧
           files w' = (files w ++ [mkFile name false])%list ∧
           open_loggers w' = <[name := List.length (files w)]> (open_loggers w)).
Proof.
  destruct (log_name_of l) as [name|] eqn:Hname.
  - destruct (open_loggers w !! name) as [h|] eqn:Hreg.
    + rewrite (create_log_file_registered w l name h) by done.
      intros [= <- <- <-]. by left.
    + destruct (decide (name ∈ unopenable w)) as [Hbad|Hok].
      * rewrite (create_log_file_unopenable w l name) by done.
        intros [= <- <- <-]. by left.
      * rewrite (create_log_file_opens w l name) by done.
        destruct (run (log "info" "Starting" (None : option string) now) (opened name w)
                    (set_log_file (Some (List.length (files w)))
                       (set_log_file_name (Some name) l))) as [r2 [w2 l2]] eqn:Hlog.
        apply log_frame in Hlog as (_ & Hfiles & Hregs & _).
        intros Hres. right. exists name. split; [done|].
        destruct r2 as [[]|e]; [|destruct e]; injection Hres as <- <- <-;
          simpl; by rewrite ?Hfiles, ?Hregs.
  - destruct (create_log_file_no_name w l now Hname) as [e ->].
    intros [= <- <- <-]. by left.
Qed.

Lemma registered_open_opened (fs : list FileObj) (reg : gmap string nat) name :
  (∀ h f, fs !! h = Some f → f_closed f = false → reg !! f_name f = Some h) →
  reg !! name = None →
  ∀ h f, (fs ++ [mkFile name false])%list !! h = Some f → f_closed f = false →
         <[name := List.length fs]> reg !! f_name f = Some h.
Proof.
  intros Hinv Hfree h f Hf Hc.
  apply lookup_app_Some in Hf as [Hf|[Hge Hf]].
  - pose proof (Hinv _ _ Hf Hc) as Hreg.
    rewrite lookup_insert_ne; [done|]. intros Heq. rewrite <- Heq in Hreg. congruence.
  - apply list_lookup_singleton_Some in Hf as [Hz <-]. simpl.
    rewrite lookup_insert_eq. f_equal. lia.
Qed.

(** C4, amended: [create_log_file] on a name that is registered takes the
    registered file object and opens nothing; and while every open file
    object is the one registered under its path, [create_log_file] keeps it
    so, hence a path has at most one open file object. *)
Theorem create_log_file_one_open_per_path now w l :
  registered_open w →
  registered_open (after (create_log_file now) w l).1 ∧
  one_open_per_path (after (create_log_file now) w l).1 ∧
  ∀ name h, log_name_of l = Some name → open_loggers w !! name = Some h →
    run (create_log_file now) w l =
      (Ok tt, (w, set_log_file (Some h) (set_log_file_name (Some name) l))).
Proof.
  intros Hinv.
  assert (Hinv' : registered_open (after (create_log_file now) w l).1).
  { unfold after. destruct (run (create_log_file now) w l) as [r [w' l']] eqn:Hrun.
    simpl. apply create_log_file_registry in Hrun as [[Hf Hr]|(name & Hfree & Hf & Hr)];
      unfold registered_open; rewrite Hf, Hr; [done|].
    by apply registered_open_opened. }
  split; [done|]. split; [by apply registered_open_one_per_path|].
  intros name h Hname Hreg. by apply create_log_file_registered.
Qed.

Lemma registered_open_demo_world : registered_open demo_world.
Proof.
  intros h f Hf Hc. destruct h as [|h]; simpl in Hf; [|done].
  injection Hf as <-. reflexivity.
Qed.

Lemma create_log_file_one_open_per_path_witness :
  registered_open (after (create_log_file "T") demo_world new_logger).1 ∧
  one_open_per_path (after (create_log_file "T") demo_world new_logger).1 ∧
  run (create_log_file "T") demo_world new_logger =
    (Ok tt, (demo_world,
             set_log_file (Some 0%nat) (set_log_file_name (Some demo_name) new_logger))).
Proof.
  destruct (create_log_file_one_open_per_path "T" demo_world new_logger
              registered_open_demo_world) as (Hreg & Hone & Hreuse).
  split; [exact Hreg|]. split; [exact Hone|].
  exact (Hreuse demo_name 0%nat eq_refl eq_refl).
Defined.

(** C4, as stated, fails.  After [a] closed, the third instance opens file
    object [1] and registers it; the close of [b], which still holds the
    closed file object [0], removes that entry; the fourth instance then
    finds the name free and opens file object [2]: [1] and [2] are both open
    on the same path. *)
Lemma two_open_files_on_one_path :
  log_file reopened_c.2 = Attr (Some 1%nat) ∧
  open_loggers reopened_c.1 !! demo_name = Some 1%nat ∧
  open_loggers (after (close "T6") reopened_c.1 shared_b.2).1 !! demo_name = None ∧
  is_open (after (close "T6") reopened_c.1 shared_b.2).1 1%nat = true ∧
  log_file reopened_d.2 = Attr (Some 2%nat) ∧
  files reopened_d.1 =
    [mkFile demo_name true; mkFile demo_name false; mkFile demo_name false] ∧
  ¬ one_open_per_path reopened_d.1.
Proof.
  assert (Hfiles : files reopened_d.1 =
    [mkFile demo_name true; mkFile demo_name false; mkFile demo_name false])
    by (vm_compute; reflexivity).
  repeat split; try (vm_compute; reflexivity). intros Hone.
  specialize (Hone 1%nat 2%nat (mkFile demo_name false) (mkFile demo_name false)).
  rewrite Hfiles in Hone. by specialize (Hone eq_refl eq_refl eq_refl eq_refl eq_refl).
Qed.

(** ** Failure to open the log file *)

(** C10, amended: when [open] fails with an I/O error, [create_log_file]
    catches it, writes one line to the error stream and returns normally; no
    exception reaches the caller, the instance gets no file object, and no
    file object or registry entry is made. *)
Theorem create_log_file_open_failure_to_stderr w l name now :
  log_name_of l = Some name →
  open_loggers w !! name = None →
  name ∈ unopenable w →
  ∃ w' l',
    run (create_log_file now) w l = (Ok tt, (w', l')) ∧
    stderr w' = (stderr w ++ [("Error: Unable to open log file " ++ name ++ nl)%string])%list ∧
    log_file l' = log_file l ∧
    files w' = files w ∧
    open_loggers w' = open_loggers w ∧
    disk w' = disk w.
Proof.
  intros Hname Hreg Hbad.
  rewrite (create_log_file_unopenable w l name) by done.
  eexists _, _. split; [done|]. by repeat split.
Qed.

Lemma create_log_file_open_failure_to_stderr_witness :
  ∃ w' l',
    run (create_log_file "T") readonly_world new_logger = (Ok tt, (w', l')) ∧
    stderr w' = (stderr readonly_world
                   ++ [("Error: Unable to open log file " ++ demo_name ++ nl)%string])%list ∧
    log_file l' = log_file new_logger ∧
    files w' = files readonly_world ∧
    open_loggers w' = open_loggers readonly_world ∧
    disk w' = disk readonly_world.
Proof.
  apply (create_log_file_open_failure_to_stderr readonly_world new_logger demo_name "T").
  - reflexivity.
  - reflexivity.
  - vm_compute. reflexivity.
Defined.

(** C10, as stated, fails: [open] raises [IOError], yet [create_log_file]
    returns normally; the failure is only a line on the error stream and the
    instance is left without a file object. *)
Lemma open_failure_is_not_raised :
  ∃ w' l',
    run (create_log_file "T") readonly_world new_logger = (Ok tt, (w', l')) ∧
    stderr w' = [("Error: Unable to open log file " ++ demo_name ++ nl)%string] ∧
    log_file l' = Attr None.
Proof. eexists _, _. vm_compute. repeat split. Qed.

(** ** Construction *)

(** C3: whatever the arguments, the clock readings and the world,
    [Logger(...)] raises before it completes: [self.settings] is read before
    any assignment to it, which is an [AttributeError], and the world is left
    untouched.  The "Starting" write of [create_log_file] reads the same
    attribute, and raises in the same way on an instance that has a lock and
    a file object but no [settings]. *)
Theorem init_always_raises output_dir ty sp LogLevel stamp now w :
  construct output_dir ty sp LogLevel stamp now w = (Raise (AttributeError "settings"), w) ∧
  ∀ lv fp h nm ts sf cv lty lsp,
    let l := mkLogger (Attr true) lv fp (Attr (Some h)) nm ts sf cv lty lsp Unset in
    run (log "info" "Starting" (None : option string) now) w l =
      (Raise (AttributeError "settings"), (w, l)).
Proof. split; reflexivity. Qed.

(** C6 at a concrete input: the configured level ["verbose"] is absent from
    the table the settings file holds, and construction raises
    [AttributeError], not [LevelNotSupported]: the table is read from
    [self.settings] before the settings file is loaded. *)
Example init_unknown_level_raises_AttributeError :
  demo_settings !! "LogLevels" ≫= (λ tbl, tbl !! upper "verbose") = None ∧
  construct "logs" "log" "./log_settings.json" "verbose" "S" "N" settings_world =
    (Raise (AttributeError "settings"), settings_world).
Proof. split; reflexivity. Qed.


(** ** Further properties of [log] *)

Lemma upper_ascii_idempotent c : upper_ascii (upper_ascii c) = upper_ascii c.
Proof. destruct c as [[] [] [] [] [] [] [] []]; reflexivity. Qed.

Lemma upper_idempotent s : upper (upper s) = upper s.
Proof.
  induction s as [|c s IH]; simpl; [done|].
  by rewrite upper_ascii_idempotent, IH.
Qed.

(** What a call of [log] can do to the disk: nothing, or one record more at
    the end of one file. *)
Lemma log_disk {C} `{PyObject C} level message (context : option C) now w l r w' l' :
  run (log level message context now) w l = (r, (w', l')) →
  disk w' = disk w ∨
  ∃ p rec, disk w' = <[p := (file_content w p ++ [rec])%list]> (disk w).
Proof.
  unfold log, file_write. unfold_M. simpl.
  destruct (lock l) as [|[|]]; simpl; [by intros [= <- <- <-]; left| |by intros [= <- <- <-]; left].
  destruct (log_file l) as [|[h|]]; simpl;
    [by intros [= <- <- <-]; left| |by intros [= <- <- <-]; left].
  destruct (settings l) as [|[d|]]; simpl;
    [by intros [= <- <- <-]; left| |by intros [= <- <- <-]; left].
  destruct (dict_bool d); simpl; [|by intros [= <- <- <-]; left].
  destruct (d !! "LogLevels") as [tbl|]; simpl; [|by intros [= <- <- <-]; left].
  destruct (tbl !! upper level) as [o|]; simpl; [|by intros [= <- <- <-]; left].
  destruct (configured_level_value l) as [|[t|]]; simpl;
    [by intros [= <- <- <-]; left| |by intros [= <- <- <-]; left].
  destruct (t <=? o)%Z; [|by intros [= <- <- <-]; left].
  destruct (py_not context); simpl;
    (destruct (files w !! h) as [f|]; simpl; [destruct (f_closed f)|]; simpl;
     intros [= <- <- <-]; [by left| |by left]; right; by eexists _, _).
Qed.

(** X1: without a file object ([log_file] is [None]) a call of [log] on an
    instance that has its lock raises [FileNotOpen], whatever the level, the
    message and the settings are, and changes nothing. *)
Theorem log_without_file_raises_FileNotOpen {C} `{PyObject C}
    w l level message (context : option C) now :
  lock l = Attr true →
  log_file l = Attr None →
  run (log level message context now) w l =
    (Raise (FileNotOpen "Log file is not open"), (w, l)).
Proof.
  intros Hlk Hlf. unfold log. unfold_M. simpl.
  rewrite Hlk. simpl. by rewrite Hlf.
Qed.

Lemma log_without_file_raises_FileNotOpen_witness :
  run (log "nonsense" "x" (None : option string) "T") empty_world new_logger =
    (Raise (FileNotOpen "Log file is not open"), (empty_world, new_logger)).
Proof.
  exact (log_without_file_raises_FileNotOpen empty_world new_logger "nonsense" "x"
           None "T" eq_refl eq_refl).
Defined.

(** X2: when [self.lock] is [None], [log] raises [UnableToLock] before it
    looks at the file, the settings or the level, and changes nothing. *)
Theorem log_without_lock_raises_UnableToLock {C} `{PyObject C}
    w l level message (context : option C) now :
  lock l = Attr false →
  run (log level message context now) w l =
    (Raise (UnableToLock "Self.lock is None or false for some reason"), (w, l)).
Proof. intros Hlk. unfold log. unfold_M. simpl. by rewrite Hlk. Qed.

Lemma log_without_lock_raises_UnableToLock_witness :
  run (log "info" "x" (None : option string) "T") demo_world (set_lock false demo_logger) =
    (Raise (UnableToLock "Self.lock is None or false for some reason"),
     (demo_world, set_lock false demo_logger)).
Proof.
  exact (log_without_lock_raises_UnableToLock demo_world (set_lock false demo_logger)
           "info" "x" None "T" eq_refl).
Defined.

(** X3: when the settings are [None] or an empty dictionary, [log] returns
    normally and writes nothing, for every level name, known or not: the
    message is dropped without any error. *)
Theorem log_without_settings_is_silent {C} `{PyObject C}
    w l h level message (context : option C) now :
  lock l = Attr true →
  log_file l = Attr (Some h) →
  settings l = Attr None ∨ settings l = Attr (Some ∅) →
  run (log level message context now) w l = (Ok tt, (w, l)).
Proof.
  intros Hlk Hlf Hst. unfold log. unfold_M. simpl.
  rewrite Hlk. simpl. rewrite Hlf. simpl.
  destruct Hst as [-> | ->]; reflexivity.
Qed.

Lemma log_without_settings_is_silent_witness :
  run (log "nonsense" "x" (None : option string) "T") demo_world
      (set_settings (Some ∅) demo_logger) =
    (Ok tt, (demo_world, set_settings (Some ∅) demo_logger)).
Proof.
  exact (log_without_settings_is_silent demo_world (set_settings (Some ∅) demo_logger)
           0%nat "nonsense" "x" None "T" eq_refl eq_refl (or_intror eq_refl)).
Defined.

(** X4: when the configured threshold is [None] (the configured level name
    was not in the table), every call of [log] with a level the table knows
    raises [LevelNotSupported], naming the level of the call, and writes
    nothing. *)
Theorem log_unresolved_threshold_raises {C} `{PyObject C}
    w l h d tbl level message (context : option C) now o :
  lock l = Attr true →
  log_file l = Attr (Some h) →
  settings l = Attr (Some d) →
  d !! "LogLevels" = Some tbl →
  tbl !! upper level = Some o →
  configured_level_value l = Attr None →
  run (log level message context now) w l =
    (Raise (LevelNotSupported (upper level ++ " is not a valid log level")), (w, l)).
Proof.
  intros Hlk Hlf Hst Htbl Ho Hcv.
  rewrite (log_loaded w l h d tbl) by done. by rewrite Ho, Hcv.
Qed.

Lemma log_unresolved_threshold_raises_witness :
  run (log "error" "x" (None : option string) "T") demo_world
      (set_configured_level_value None demo_logger) =
    (Raise (LevelNotSupported (upper "error" ++ " is not a valid log level")),
     (demo_world, set_configured_level_value None demo_logger)).
Proof.
  exact (log_unresolved_threshold_raises demo_world
           (set_configured_level_value None demo_logger) 0%nat demo_settings
           {[ "DEBUG" := 0; "INFO" := 1; "WARNING" := 2; "ERROR" := 3 ]}
           "error" "x" None "T" 3 eq_refl eq_refl eq_refl eq_refl eq_refl eq_refl).
Defined.

(** X5: a settings dictionary that is not empty but has no ["LogLevels"]
    entry makes [log] raise [KeyError]; nothing is written. *)
Theorem log_settings_without_table_raises_KeyError {C} `{PyObject C}
    w l h d level message (context : option C) now :
  lock l = Attr true →
  log_file l = Attr (Some h) →
  settings l = Attr (Some d) →
  d ≠ ∅ →
  d !! "LogLevels" = None →
  run (log level message context now) w l = (Raise (KeyError "LogLevels"), (w, l)).
Proof.
  intros Hlk Hlf Hst Hne Hnone. unfold log. unfold_M. simpl.
  rewrite Hlk. simpl. rewrite Hlf. simpl. rewrite Hst. simpl.
  unfold dict_bool. rewrite bool_decide_eq_false_2 by done. simpl.
  by rewrite Hnone.
Qed.

Lemma log_settings_without_table_raises_KeyError_witness :
  run (log "info" "x" (None : option string) "T") demo_world
      (set_settings (Some {[ "Levels" := ∅ ]}) demo_logger) =
    (Raise (KeyError "LogLevels"),
     (demo_world, set_settings (Some {[ "Levels" := ∅ ]}) demo_logger)).
Proof.
  apply (log_settings_without_table_raises_KeyError demo_world
           (set_settings (Some {[ "Levels" := ∅ ]}) demo_logger) 0%nat
           {[ "Levels" := ∅ ]} "info" "x" None "T").
  - reflexivity.
  - reflexivity.
  - reflexivity.
  - intros Heq. apply (f_equal (λ m : Settings, m !! "Levels")) in Heq.
    vm_compute in Heq. discriminate.
  - reflexivity.
Defined.

(** X6: the level name of a call is case-insensitive: [log] behaves on a
    level name exactly as on its upper-cased form, in every state. *)
Theorem log_level_case_insensitive {C} `{PyObject C}
    w l level message (context : option C) now :
  run (log level message context now) w l =
  run (log (upper level) message context now) w l.
Proof. unfold run, log. by rewrite upper_idempotent. Qed.

(** X7: [log] is append-only.  In every state and whatever it returns, it
    assigns no attribute, leaves the file objects, the registry and the
    error stream as they were, and the content of every file afterwards is
    its content before followed by at most one record. *)
Theorem log_append_only {C} `{PyObject C} w l level message (context : option C) now :
  (after (log level message context now) w l).2 = l ∧
  files (after (log level message context now) w l).1 = files w ∧
  open_loggers (after (log level message context now) w l).1 = open_loggers w ∧
  stderr (after (log level message context now) w l).1 = stderr w ∧
  ∀ p, ∃ added,
    file_content (after (log level message context now) w l).1 p
      = (file_content w p ++ added)%list ∧
    (List.length added ≤ 1)%nat.
Proof.
  unfold after.
  destruct (run (log level message context now) w l) as [r [w' l']] eqn:Hrun. simpl.
  destruct (log_frame _ _ _ _ _ _ _ _ _ Hrun) as (-> & Hf & Hr & He & _).
  repeat (split; [done|]).
  intros p. apply log_disk in Hrun as [Hd|(q & rec & Hd)].
  - exists []. unfold file_content. rewrite Hd, app_nil_r. split; [done|simpl; lia].
  - destruct (decide (q = p)) as [->|Hne].
    + exists [rec]. unfold file_content at 1. rewrite Hd, lookup_insert_eq.
      split; [done|simpl; lia].
    + exists []. unfold file_content. rewrite Hd, lookup_insert_ne by done.
      rewrite app_nil_r. split; [done|simpl; lia].
Qed.

(** ** Further properties of [create_log_file] and [close] *)

Lemma released_files_other h nm w h' :
  h' ≠ h → files (released h nm w) !! h' = files w !! h'.
Proof.
  intros Hne. unfold released.
  destruct (files w !! h) as [f|]; destruct nm as [n|]; simpl;
    try case_decide; simpl; try done; by rewrite list_lookup_insert_ne.
Qed.

Lemma released_files_self h nm w f :
  files w !! h = Some f → files (released h nm w) !! h = Some (mkFile (f_name f) true).
Proof.
  intros Hf. unfold released. rewrite Hf.
  assert (Hlt : (h < List.length (files w))%nat) by (by eapply lookup_lt_Some).
  destruct nm as [n|]; simpl; try case_decide; simpl; by rewrite list_lookup_insert_eq.
Qed.

Lemma released_length h nm w :
  List.length (files (released h nm w)) = List.length (files w).
Proof.
  unfold released.
  destruct (files w !! h) as [f|]; destruct nm as [n|]; simpl;
    try case_decide; simpl; by rewrite ?length_insert.
Qed.

Lemma released_registry_other h nm w n :
  nm ≠ Some n → open_loggers (released h nm w) !! n = open_loggers w !! n.
Proof.
  intros Hne. unfold released.
  destruct (files w !! h) as [f|]; destruct nm as [m|]; simpl;
    try case_decide; simpl; try done; rewrite lookup_delete_ne; congruence.
Qed.

Lemma released_registry_sub h nm w n h' :
  open_loggers (released h nm w) !! n = Some h' → open_loggers w !! n = Some h'.
Proof.
  unfold released.
  destruct (files w !! h) as [f|]; destruct nm as [m|]; simpl;
    try case_decide; simpl; try done;
    (destruct (decide (m = n)) as [->|Hne];
       [by rewrite lookup_delete_eq|by rewrite lookup_delete_ne]).
Qed.

Lemma released_stderr h nm w : stderr (released h nm w) = stderr w.
Proof.
  unfold released.
  destruct (files w !! h) as [f|]; destruct nm as [n|]; simpl;
    try case_decide; done.
Qed.

Lemma released_unopenable h nm w : unopenable (released h nm w) = unopenable w.
Proof.
  unfold released.
  destruct (files w !! h) as [f|]; destruct nm as [n|]; simpl;
    try case_decide; done.
Qed.

(** [create_log_file] on a free name that can be opened: whatever the
    "Starting" write does, the new file object is there and registered, and
    the instance holds it. *)
Lemma create_log_file_fresh w l name now :
  log_name_of l = Some name →
  open_loggers w !! name = None →
  name ∉ unopenable w →
  ∃ r w',
    run (create_log_file now) w l =
      (r, (w', set_log_file (Some (List.length (files w)))
                 (set_log_file_name (Some name) l))) ∧
    files w' = (files w ++ [mkFile name false])%list ∧
    open_loggers w' = <[name := List.length (files w)]> (open_loggers w).
Proof.
  intros Hname Hreg Hok.
  rewrite (create_log_file_opens w l name) by done.
  destruct (run (log "info" "Starting" (None : option string) now) (opened name w)
              (set_log_file (Some (List.length (files w)))
                 (set_log_file_name (Some name) l))) as [r2 [w2 l2]] eqn:Hlog.
  apply log_frame in Hlog as (-> & Hfiles & Hregs & _).
  destruct r2 as [[]|e]; [|destruct e]; eexists _, _; (split; [reflexivity|]);
    simpl; by rewrite ?Hfiles, ?Hregs.
Qed.

Lemma opened_lookup_new name w :
  files (opened name w) !! List.length (files w) = Some (mkFile name false).
Proof. simpl. by apply list_lookup_middle. Qed.

Lemma opened_content name w : file_content (opened name w) name = file_content w name.
Proof.
  unfold file_content at 1. simpl. by rewrite lookup_insert_eq.
Qed.

(** X8: without an output directory ([file_path] is [None]) both
    [get_log_name] and [create_log_file] raise [PathNonExistant]; no name is
    assigned, nothing is opened and nothing is registered. *)
Theorem create_log_file_without_path_raises w l now :
  file_path l = Attr None →
  get_log_name (w, l) = (Raise (PathNonExistant "File path not found"), (w, l)) ∧
  run (create_log_file now) w l =
    (Raise (PathNonExistant "File path not found"), (w, l)).
Proof.
  intros Hfp.
  assert (Hg : get_log_name (w, l) =
                 (Raise (PathNonExistant "File path not found"), (w, l))).
  { unfold get_log_name. unfold_M. simpl. by rewrite Hfp. }
  split; [done|].
  unfold run, create_log_file. unfold mbind at 1. unfold M_bind at 1. by rewrite Hg.
Qed.

Lemma create_log_file_without_path_raises_witness :
  get_log_name (empty_world, set_file_path None new_logger) =
    (Raise (PathNonExistant "File path not found"),
     (empty_world, set_file_path None new_logger)) ∧
  run (create_log_file "T") empty_world (set_file_path None new_logger) =
    (Raise (PathNonExistant "File path not found"),
     (empty_world, set_file_path None new_logger)).
Proof.
  exact (create_log_file_without_path_raises empty_world
           (set_file_path None new_logger) "T" eq_refl).
Defined.

(** X9: on a name that is not registered and can be opened, with INFO at or
    above the threshold, [create_log_file] returns normally: one new file
    object is opened on that name and registered under it, the instance
    holds it, and the record ["[<now>] [INFO] Starting\n"] is appended to
    the file. *)
Theorem create_log_file_opens_and_announces w l name now d tbl o t :
  log_name_of l = Some name →
  open_loggers w !! name = None →
  name ∉ unopenable w →
  lock l = Attr true →
  settings l = Attr (Some d) →
  d !! "LogLevels" = Some tbl →
  tbl !! "INFO" = Some o →
  configured_level_value l = Attr (Some t) →
  (t ≤ o)%Z →
  ∃ w',
    run (create_log_file now) w l =
      (Ok tt, (w', set_log_file (Some (List.length (files w)))
                     (set_log_file_name (Some name) l))) ∧
    files w' = (files w ++ [mkFile name false])%list ∧
    open_loggers w' = <[name := List.length (files w)]> (open_loggers w) ∧
    file_content w' name =
      (file_content w name ++ [("[" ++ now ++ "] [INFO] Starting" ++ nl)%string])%list.
Proof.
  intros Hname Hreg Hok Hlk Hst Htbl Hinfo Hcv Hle.
  rewrite (create_log_file_opens w l name) by done.
  rewrite (log_loaded _ _ (List.length (files w)) d tbl) by done.
  change (upper "info") with "INFO". rewrite Hinfo. simpl. rewrite Hcv.
  apply Z.leb_le in Hle. rewrite Hle.
  rewrite (file_write_open _ _ _ (mkFile name false)) by (done || apply opened_lookup_new).
  eexists. split; [reflexivity|]. split; [done|]. split; [done|].
  rewrite file_content_written, opened_content. reflexivity.
Qed.

Lemma create_log_file_opens_and_announces_witness :
  ∃ w',
    run (create_log_file "T0") empty_world new_logger =
      (Ok tt, (w', set_log_file (Some (List.length (files empty_world)))
                     (set_log_file_name (Some demo_name) new_logger))) ∧
    files w' = (files empty_world ++ [mkFile demo_name false])%list ∧
    open_loggers w' =
      <[demo_name := List.length (files empty_world)]> (open_loggers empty_world) ∧
    file_content w' demo_name =
      (file_content empty_world demo_name
         ++ [("[" ++ "T0" ++ "] [INFO] Starting" ++ nl)%string])%list.
Proof.
  apply (create_log_file_opens_and_announces empty_world new_logger demo_name "T0"
           demo_settings {[ "DEBUG" := 0; "INFO" := 1; "WARNING" := 2; "ERROR" := 3 ]}
           1 1); try reflexivity.
  vm_compute. intros Hin. discriminate Hin.
Defined.

(** X10: when the "Starting" write fails because the table has no INFO
    level, [create_log_file] raises [LevelNotSupported] to its caller (the
    handler catches [IOError] only), and the file it has just opened stays
    open and registered, held by the instance. *)
Theorem create_log_file_start_failure_keeps_file w l name now d tbl :
  log_name_of l = Some name →
  open_loggers w !! name = None →
  name ∉ unopenable w →
  lock l = Attr true →
  settings l = Attr (Some d) →
  d !! "LogLevels" = Some tbl →
  tbl !! "INFO" = None →
  ∃ w' l',
    run (create_log_file now) w l =
      (Raise (LevelNotSupported "INFO is not a valid log level"), (w', l')) ∧
    log_file l' = Attr (Some (List.length (files w))) ∧
    is_open w' (List.length (files w)) = true ∧
    open_loggers w' !! name = Some (List.length (files w)).
Proof.
  intros Hname Hreg Hok Hlk Hst Htbl Hinfo.
  rewrite (create_log_file_opens w l name) by done.
  rewrite (log_loaded _ _ (List.length (files w)) d tbl) by done.
  change (upper "info") with "INFO". rewrite Hinfo.
  eexists _, _. split; [reflexivity|]. split; [done|]. split.
  - unfold is_open. by rewrite opened_lookup_new.
  - simpl. by rewrite lookup_insert_eq.
Qed.

Lemma create_log_file_start_failure_keeps_file_witness :
  ∃ w' l',
    run (create_log_file "T0") empty_world
        (set_settings (Some {[ "LogLevels" := {[ "ERROR" := 3 ]} ]}) new_logger) =
      (Raise (LevelNotSupported "INFO is not a valid log level"), (w', l')) ∧
    log_file l' = Attr (Some (List.length (files empty_world))) ∧
    is_open w' (List.length (files empty_world)) = true ∧
    open_loggers w' !! demo_name = Some (List.length (files empty_world)).
Proof.
  apply (create_log_file_start_failure_keeps_file empty_world
           (set_settings (Some {[ "LogLevels" := {[ "ERROR" := 3 ]} ]}) new_logger)
           demo_name "T0" {[ "LogLevels" := {[ "ERROR" := 3 ]} ]} {[ "ERROR" := 3 ]});
    try reflexivity.
  vm_compute. intros Hin. discriminate Hin.
Defined.

(** X11: [create_log_file] never disturbs what is there: in every state and
    whatever it returns, every file object and every registry entry that
    existed before is still there, unchanged. *)
Theorem create_log_file_keeps_existing w l now :
  (∀ h f, files w !! h = Some f →
          files (after (create_log_file now) w l).1 !! h = Some f) ∧
  (∀ n h, open_loggers w !! n = Some h →
          open_loggers (after (create_log_file now) w l).1 !! n = Some h).
Proof.
  unfold after.
  destruct (run (create_log_file now) w l) as [r [w' l']] eqn:Hrun. simpl.
  apply create_log_file_registry in Hrun as [[Hf Hr]|(name & Hfree & Hf & Hr)];
    rewrite Hf, Hr; [done|]. split.
  - intros h f Hh. by apply lookup_app_l_Some.
  - intros n h Hn. rewrite lookup_insert_ne; [done|]. congruence.
Qed.

(** What [close] can do to the file objects and the registry, in every
    state: nothing, or what its [finally] block does after a [log] call
    that left both as they were. *)
Lemma close_world now w l r w' l' :
  run (close now) w l = (r, (w', l')) →
  ∃ w1, files w1 = files w ∧ open_loggers w1 = open_loggers w ∧
        (w' = w1 ∨ ∃ h nm, w' = released h nm w1).
Proof.
  destruct (log_file l) as [|[h|]] eqn:Hlf.
  - unfold close. unfold_M. simpl. rewrite Hlf. intros [= <- <- <-].
    exists w. auto.
  - destruct (log_file_name l) as [|nm] eqn:Hnm.
    + intros Hrun.
      destruct (run (log "info" "Closing file" (None : option string) now) w l)
        as [r1 [w1 l1]] eqn:Hlog.
      destruct (log_frame _ _ _ _ _ _ _ _ _ Hlog) as (-> & Hf & Hr & _).
      exists w1. split; [done|]. split; [done|]. right. exists h, None.
      revert Hrun. unfold run in Hlog. unfold close. unfold_M. simpl.
      rewrite Hlf. simpl. rewrite Hlog. simpl. rewrite Hlf. simpl.
      unfold file_close, released. unfold_M. simpl.
      destruct (files w1 !! h) as [f|]; simpl; rewrite Hnm; simpl;
        by intros [= <- <- <-].
    + destruct (close_holding w l h nm now Hlf Hnm) as (r1 & w1 & Hlog & Hclose).
      rewrite Hclose. intros [= <- <- <-].
      destruct (log_frame _ _ _ _ _ _ _ _ _ Hlog) as (_ & Hf & Hr & _).
      exists w1. split; [done|]. split; [done|]. right. by exists h, nm.
  - rewrite close_released by done. intros [= <- <- <-]. exists w. auto.
Qed.

Lemma registry_named_released h nm w :
  registry_named w → registry_named (released h nm w).
Proof.
  intros Hinv n h' Hn. apply released_registry_sub in Hn.
  destruct (Hinv _ _ Hn) as (f & Hf & Hname).
  destruct (decide (h' = h)) as [->|Hne].
  - exists (mkFile (f_name f) true). split; [by apply released_files_self|done].
  - exists f. split; [by rewrite released_files_other|done].
Qed.

Lemma registry_named_demo_world : registry_named demo_world.
Proof.
  intros n h Hn.
  change (({[ demo_name := 0%nat ]} : gmap string nat) !! n = Some h) in Hn.
  apply lookup_singleton_Some in Hn as [<- <-].
  by exists (mkFile demo_name false).
Qed.

(** X12: [close] on an open logger with INFO at or above the threshold
    returns normally; the record ["[<now>] [INFO] Closing file\n"] is the
    last one appended to the file, the file object is closed, the registry
    entry of the file name is gone and the instance holds no file object. *)
Theorem close_writes_banner_and_releases w l h f nm now d tbl o t :
  lock l = Attr true →
  log_file l = Attr (Some h) →
  files w !! h = Some f →
  f_closed f = false →
  log_file_name l = Attr (Some nm) →
  settings l = Attr (Some d) →
  d !! "LogLevels" = Some tbl →
  tbl !! "INFO" = Some o →
  configured_level_value l = Attr (Some t) →
  (t ≤ o)%Z →
  ∃ w',
    run (close now) w l = (Ok tt, (w', set_log_file None l)) ∧
    file_content w' (f_name f) =
      (file_content w (f_name f)
         ++ [("[" ++ now ++ "] [INFO] Closing file" ++ nl)%string])%list ∧
    is_open w' h = false ∧
    open_loggers w' !! nm = None.
Proof.
  intros Hlk Hlf Hf Hc Hnm Hst Htbl Hinfo Hcv Hle.
  destruct (close_holding w l h (Some nm) now Hlf Hnm) as (r & w1 & Hlog & Hclose).
  rewrite (log_loaded w l h d tbl) in Hlog by done.
  change (upper "info") with "INFO" in Hlog. rewrite Hinfo, Hcv in Hlog.
  apply Z.leb_le in Hle. rewrite Hle in Hlog.
  rewrite (file_write_open w l h f) in Hlog by done.
  injection Hlog as <- <-. rewrite Hclose.
  eexists. split; [reflexivity|].
  split; [|split; [apply released_closed|apply released_unregistered]].
  unfold file_content at 1. rewrite released_disk.
  fold (file_content (set_disk (<[f_name f := (file_content w (f_name f) ++
    [record_text "info" "Closing file" (None : option string) now])%list]> (disk w)) w)
    (f_name f)).
  by rewrite file_content_written.
Qed.

Lemma close_writes_banner_and_releases_witness :
  ∃ w',
    run (close "T9") demo_world demo_logger = (Ok tt, (w', set_log_file None demo_logger)) ∧
    file_content w' demo_name =
      (file_content demo_world demo_name
         ++ [("[" ++ "T9" ++ "] [INFO] Closing file" ++ nl)%string])%list ∧
    is_open w' 0%nat = false ∧
    open_loggers w' !! demo_name = None.
Proof.
  exact (close_writes_banner_and_releases demo_world demo_logger 0%nat
           (mkFile demo_name false) demo_name "T9" demo_settings
           {[ "DEBUG" := 0; "INFO" := 1; "WARNING" := 2; "ERROR" := 3 ]} 1 1
           eq_refl eq_refl eq_refl eq_refl eq_refl eq_refl eq_refl eq_refl eq_refl
           (Z.le_refl 1)).
Defined.

(** X13: [close] releases only what the instance names: every other file
    object and every registry entry under another name is left as it was,
    and nothing goes to the error stream. *)
Theorem close_leaves_the_rest w l h nm now :
  log_file l = Attr (Some h) →
  log_file_name l = Attr nm →
  (∀ h', h' ≠ h → files (after (close now) w l).1 !! h' = files w !! h') ∧
  (∀ n, nm ≠ Some n →
        open_loggers (after (close now) w l).1 !! n = open_loggers w !! n) ∧
  stderr (after (close now) w l).1 = stderr w.
Proof.
  intros Hlf Hnm.
  destruct (close_holding w l h nm now Hlf Hnm) as (r & w1 & Hlog & Hclose).
  destruct (log_frame _ _ _ _ _ _ _ _ _ Hlog) as (_ & Hf & Hr & He & _).
  unfold after. rewrite Hclose. simpl. split; [|split].
  - intros h' Hne. by rewrite released_files_other, Hf.
  - intros n Hne. by rewrite released_registry_other, Hr.
  - by rewrite released_stderr.
Qed.

Lemma close_leaves_the_rest_witness :
  (∀ h', h' ≠ 0%nat →
         files (after (close "T") demo_world demo_logger).1 !! h' = files demo_world !! h') ∧
  (∀ n, Some demo_name ≠ Some n →
        open_loggers (after (close "T") demo_world demo_logger).1 !! n
          = open_loggers demo_world !! n) ∧
  stderr (after (close "T") demo_world demo_logger).1 = stderr demo_world.
Proof.
  exact (close_leaves_the_rest demo_world demo_logger 0%nat (Some demo_name) "T"
           eq_refl eq_refl).
Defined.

(** X14: after [close], [create_log_file] on the same name does not take
    the closed file object back: it opens a new one, different from the old,
    which is open and registered, while the old one stays closed. *)
Theorem close_then_create_opens_new_file_object w l l2 h f name now now' :
  log_file l = Attr (Some h) →
  log_file_name l = Attr (Some name) →
  files w !! h = Some f →
  log_name_of l2 = Some name →
  name ∉ unopenable w →
  let s2 := after (create_log_file now') (after (close now) w l).1 l2 in
  log_file s2.2 = Attr (Some (List.length (files w))) ∧
  List.length (files w) ≠ h ∧
  is_open s2.1 (List.length (files w)) = true ∧
  is_open s2.1 h = false ∧
  open_loggers s2.1 !! name = Some (List.length (files w)).
Proof.
  intros Hlf Hnm Hf Hname Hok.
  destruct (close_holding w l h (Some name) now Hlf Hnm) as (r & w0 & Hlog & Hclose).
  destruct (log_frame _ _ _ _ _ _ _ _ _ Hlog) as (_ & Hfiles & _ & _ & Hun).
  assert (Hlt : (h < List.length (files w))%nat) by (by eapply lookup_lt_Some).
  intros s2. subst s2. unfold after. rewrite Hclose. cbn [fst snd].
  set (w1 := released h (Some name) w0).
  assert (Hlen : List.length (files w1) = List.length (files w))
    by (unfold w1; by rewrite released_length, Hfiles).
  destruct (create_log_file_fresh w1 l2 name now' Hname) as (r2 & w2 & Hrun & Hf2 & Hr2).
  { apply released_unregistered. }
  { unfold w1. by rewrite released_unopenable, Hun. }
  rewrite Hrun. cbn [fst snd]. rewrite Hlen in *.
  split; [done|]. split; [lia|]. unfold is_open. rewrite Hf2, Hr2.
  split; [|split].
  - rewrite list_lookup_middle by done. done.
  - rewrite lookup_app_l by lia. unfold w1.
    rewrite (released_files_self h (Some name) w0 f) by (by rewrite Hfiles). done.
  - by rewrite lookup_insert_eq.
Qed.

Lemma close_then_create_opens_new_file_object_witness :
  let s2 := after (create_log_file "T2")
              (after (close "T1") demo_world demo_logger).1 new_logger in
  log_file s2.2 = Attr (Some (List.length (files demo_world))) ∧
  List.length (files demo_world) ≠ 0%nat ∧
  is_open s2.1 (List.length (files demo_world)) = true ∧
  is_open s2.1 0%nat = false ∧
  open_loggers s2.1 !! demo_name = Some (List.length (files demo_world)).
Proof.
  apply (close_then_create_opens_new_file_object demo_world demo_logger new_logger
           0%nat (mkFile demo_name false) demo_name "T1" "T2"); try reflexivity.
  vm_compute. intros Hin. discriminate Hin.
Defined.

(** X15: the registry never names a file object of another path.  If every
    registered name leads to a file object opened on that name, this is
    still so after any call of [log], [create_log_file] or [close], on any
    instance and whatever the call returns. *)
Theorem registry_named_preserved w :
  registry_named w →
  (∀ level message (context : option string) now l,
     registry_named (after (log level message context now) w l).1) ∧
  (∀ now l, registry_named (after (create_log_file now) w l).1) ∧
  (∀ now l, registry_named (after (close now) w l).1).
Proof.
  intros Hinv. split; [|split].
  - intros level message context now l. unfold after.
    destruct (run (log level message context now) w l) as [r [w' l']] eqn:Hrun.
    simpl. apply log_frame in Hrun as (_ & Hf & Hr & _).
    unfold registry_named. by rewrite Hf, Hr.
  - intros now l. unfold after.
    destruct (run (create_log_file now) w l) as [r [w' l']] eqn:Hrun. simpl.
    apply create_log_file_registry in Hrun as [[Hf Hr]|(name & Hfree & Hf & Hr)];
      unfold registry_named; rewrite Hf, Hr; [done|].
    intros n h Hn. destruct (decide (name = n)) as [->|Hne].
    + rewrite lookup_insert_eq in Hn. injection Hn as <-.
      exists (mkFile n false). split; [by apply list_lookup_middle|done].
    + rewrite lookup_insert_ne in Hn by done.
      destruct (Hinv _ _ Hn) as (f & Hh & Hname).
      exists f. split; [by apply lookup_app_l_Some|done].
  - intros now l. unfold after.
    destruct (run (close now) w l) as [r [w' l']] eqn:Hrun. simpl.
    apply close_world in Hrun as (w1 & Hf & Hr & Hw).
    assert (Hinv1 : registry_named w1) by (unfold registry_named; by rewrite Hf, Hr).
    destruct Hw as [->|(h & nm & ->)]; [done|]. by apply registry_named_released.
Qed.

Lemma registry_named_preserved_witness :
  (∀ level message (context : option string) now l,
     registry_named (after (log level message context now) demo_world l).1) ∧
  (∀ now l, registry_named (after (create_log_file now) demo_world l).1) ∧
  (∀ now l, registry_named (after (close now) demo_world l).1).
Proof. exact (registry_named_preserved demo_world registry_named_demo_world). Defined.

(** X16: [close] keeps "every open file object is the registered one of its
    path" provided the entry registered under the instance's file name, if
    there is one, is the instance's own file object. *)
Theorem close_keeps_registered_open w l h nm now :
  registered_open w →
  log_file l = Attr (Some h) →
  log_file_name l = Attr (Some nm) →
  (∀ h', open_loggers w !! nm = Some h' → h' = h) →
  registered_open (after (close now) w l).1.
Proof.
  intros Hinv Hlf Hnm Hown.
  destruct (close_holding w l h (Some nm) now Hlf Hnm) as (r & w1 & Hlog & Hclose).
  destruct (log_frame _ _ _ _ _ _ _ _ _ Hlog) as (_ & Hf & Hr & _).
  unfold after. rewrite Hclose. cbn [fst snd].
  intros h2 f2 Hh2 Hc2.
  destruct (decide (h2 = h)) as [->|Hne].
  - destruct (files w1 !! h) as [f|] eqn:Hh.
    + rewrite (released_files_self h (Some nm) w1 f Hh) in Hh2.
      injection Hh2 as <-. done.
    + pose proof (released_length h (Some nm) w1) as Hlen.
      apply lookup_lt_Some in Hh2. apply lookup_ge_None in Hh. lia.
  - rewrite released_files_other in Hh2 by done. rewrite Hf in Hh2.
    pose proof (Hinv _ _ Hh2 Hc2) as Hreg.
    rewrite released_registry_other, Hr; [done|].
    intros [= Heq]. rewrite <- Heq in Hreg. apply Hown in Hreg. congruence.
Qed.

Lemma close_keeps_registered_open_witness :
  registered_open (after (close "T") demo_world demo_logger).1.
Proof.
  apply (close_keeps_registered_open demo_world demo_logger 0%nat demo_name "T").
  - exact registered_open_demo_world.
  - reflexivity.
  - reflexivity.
  - intros h' Hh'. vm_compute in Hh'. by injection Hh' as <-.
Defined.

(** ** [format] *)

Lemma string_app_assoc (a b c : string) : ((a ++ b) ++ c = a ++ (b ++ c))%string.
Proof.
  induction a as [|x a IH]; [done|].
  change (String x ((a ++ b) ++ c) = String x (a ++ (b ++ c)))%string.
  by rewrite IH.
Qed.

(** X17: [format] joins with single spaces and composes: formatting two
    non-empty argument lists one after the other is formatting each and
    joining the two results with one space. *)
Theorem format_app (xs ys : list string) :
  xs ≠ [] → ys ≠ [] →
  format (xs ++ ys) = (format xs ++ " " ++ format ys)%string.
Proof.
  intros Hxs Hys. unfold format.
  induction xs as [|x xs IH]; [done|].
  destruct xs as [|x' xs].
  - simpl. by destruct ys.
  - change (String.concat " " ((x :: x' :: xs) ++ ys))
      with (x ++ " " ++ String.concat " " ((x' :: xs) ++ ys))%string.
    rewrite IH by done.
    change (String.concat " " (x :: x' :: xs))
      with (x ++ " " ++ String.concat " " (x' :: xs))%string.
    by rewrite !string_app_assoc.
Qed.

Lemma format_app_witness :
  format (["disk"; "full"] ++ ["on"; "sda1"]) =
    (format ["disk"; "full"] ++ " " ++ format ["on"; "sda1"])%string.
Proof. apply format_app; discriminate. Defined.
